(* ===== verification/_CoqProject ===== *)
-Q . S2P
Prelude.v
Mailbox.v
Hooks.v
SafetyVW.v
VWSpec.v
Gateway.v
