(* ===== verification/Prelude.v ===== *)
(** * Verification of the VW safety policy of the panda CAN gateway

    The program is [src/panda/board/safety/safety_vw.h]: the per-vehicle
    safety hooks that the panda firmware calls for every CAN frame it sees
    or is asked to send.  The file keeps one global
    ([vw_ignition_started]), writes one global of the framework
    ([controls_allowed]) and exports the hook table [vw_hooks] with six
    operations: [vw_init], [vw_rx_hook], [vw_tx_hook], [vw_tx_lin_hook],
    [vw_ign_hook] and [vw_fwd_hook].

    ** Parts of the program and how they interact

    - Frames.  The hooks receive a pointer to an STM32 bxCAN FIFO mailbox
      ([CAN_FIFOMailBox_TypeDef]: the 32-bit registers RIR, RDTR, RDLR,
      RDHR).  The hooks decode the bus number from RDTR bits 4..11 (panda
      stores it there), the identifier from RIR (bit 2 = extended flag,
      the 29-bit id at bits 3..31, the 11-bit id at bits 21..31), the
      payload from RDLR/RDHR.
    - The hook interface ([safety_hooks] of the framework): a table of six
      function pointers acting on the process's globals.
    - The VW policy: ignition detection in [vw_rx_hook], routing in
      [vw_fwd_hook], unconditional approval in [vw_tx_hook] and
      [vw_tx_lin_hook], [controls_allowed = 1] in [vw_init].
    - The gateway dispatch (outside [src/]): for each received frame it
      stamps the bus number into RDTR, asks [fwd] for a destination,
      forwards unless it gets -1, then calls [rx]; it sends a host frame
      only when [tx] approves.

    ** Files

    - [Prelude] (this file): C integer conventions ([c_true] for C's truth
      test, [Z.b2z] for a comparison's int result, [u32] registers,
      [int32_of_uint32] for the implicit conversion), the small state
      monad [St] in which every hook is written (the C globals become an
      explicit state), the bit-level lemmas shared by all files, the hint
      databases [can_bits] and [can_simpl] and the tactic [zcase].
    - [Mailbox]: the mailbox record and the decoding helpers exactly as
      the hooks compute them ([rx_bus_number], [rx_addr], [fwd_addr]);
      the logical frame of the spec ([Frame]), the driver's encoding
      [mailbox_of_frame] and the decoding [frame_of_mailbox]; round trip
      and bounds theorems.
    - [Hooks]: the hook table [safety_hooks] as a record of state-passing
      operations, the typed routing decision [fwd_decision] and the
      interface contract [HooksContract] (a typeclass) that a policy
      promises the gateway.
    - [SafetyVW]: the globals record and the six VW hooks translated line
      by line, the table [vw_hooks], their behaviour on every branch, the
      range invariant of [vw_ignition_started], and the instance of the
      contract.
    - [VWSpec]: the abstract policy of the spec (section 4.3: boolean
      ignition, typed forwarding decision over logical frames) and the
      refinement theorems relating [vw_hooks] to it.  Where the code parts
      from the spec (routing of extended frames, read with the standard
      shift) or from its own comment (extended ids are said to be "Not
      looked at", yet an extended 0x3C0 sets the ignition flag), the
      theorems state both sides as error properties.
    - [Gateway]: the dispatch glue as a step function in the state monad
      over events, with runs and a reachability relation; the provenance
      of every transmitted frame for any hook table (a host frame only
      after the transmit hook approved it, a forward only to the bus the
      forwarding hook answered, never on -1), the round trip of the
      bus-number stamping into RDTR, and, for [vw_hooks], invariants of
      every reachable state (nothing from an unknown bus is forwarded, a
      frame read as 0x126 never reaches the car from bus 1) and the
      ignition level after any trace.  A lemma proved against
      [HooksContract] alone shows that no negative answer becomes a
      destination.

    ** Integers

    Registers are [Z] constrained to [0, 2^32) by [u32]; every shift and
    mask is written with [Z.shiftr] and [Z.land] as in the C.  The only
    narrowing conversion of the code ([int32_t addr = RIR >> 21]) is
    modelled by [int32_of_uint32], and proved to be the identity on the
    values that reach it.  There is no loop in the program: no fuel.

    ** Not modelled

    The CAN peripheral driver, interrupts, USB transport, queues and the
    choice of the active policy (out of scope of the spec), and the
    meaning of [controls_allowed] beyond its assignment. *)

From Stdlib Require Import ZArith Lia Bool List.
From stdpp Require Import base decidable numbers.

Open Scope Z_scope.

(** ** A state monad for code that mutates globals *)

Definition St (S A : Type) : Type := S -> A * S.

#[export] Instance St_ret S : MRet (St S) := fun A x s => (x, s).
#[export] Instance St_bind S : MBind (St S) :=
  fun A B f c s => let '(a, s') := c s in f a s'.

Definition st_get {S} : St S S := fun s => (s, s).
Definition st_put {S} (s : S) : St S unit := fun _ => (tt, s).
Definition st_modify {S} (f : S -> S) : St S unit := fun s => (tt, f s).

(** Run a computation, keeping the result or the final state. *)
Definition st_eval {S A} (c : St S A) (s : S) : A := fst (c s).
Definition st_exec {S A} (c : St S A) (s : S) : S := snd (c s).

(** ** C integer conventions *)

(** Notations that let the models read like the C they translate. *)
Declare Scope c_scope.
Delimit Scope c_scope with c.

Notation "a '>>' k" := (Z.shiftr a k) (at level 35) : c_scope.
Notation "a '<<' k" := (Z.shiftl a k) (at level 35) : c_scope.

(** C's truth test of an [int]: any non-zero value is true. *)
Definition c_true (x : Z) : bool := negb (x =? 0).

(** An [uint32_t] value (a register). *)
Definition u32 (x : Z) : Prop := 0 <= x < 2 ^ 32.

#[export] Instance u32_dec x : Decision (u32 x).
Proof. unfold u32. apply _. Defined.

(** The conversion of an [uint32_t] to [int32_t] (two's complement, as
    the ARM compilers of the firmware do it). *)
Definition int32_of_uint32 (x : Z) : Z :=
  if x <? 2 ^ 31 then x else x - 2 ^ 32.

(** ** Generic lemmas on C integers and bits *)

Lemma c_true_b2z b : c_true (Z.b2z b) = b.
Proof. by destruct b. Qed.

Lemma c_true_spec x : c_true x = true <-> x <> 0.
Proof. unfold c_true. rewrite negb_true_iff, Z.eqb_neq. tauto. Qed.

Lemma c_true_false x : c_true x = false <-> x = 0.
Proof. unfold c_true. rewrite negb_false_iff, Z.eqb_eq. tauto. Qed.

Lemma int32_of_uint32_small x : 0 <= x < 2 ^ 31 -> int32_of_uint32 x = x.
Proof.
  intros H. unfold int32_of_uint32.
  destruct (Z.ltb_spec x (2 ^ 31)); lia.
Qed.

Lemma int32_of_uint32_range x : u32 x -> - 2 ^ 31 <= int32_of_uint32 x < 2 ^ 31.
Proof.
  unfold u32, int32_of_uint32. intros H.
  destruct (Z.ltb_spec x (2 ^ 31)); lia.
Qed.

(** A right shift of a register leaves [32 - k] bits. *)
Lemma shiftr_u32_bound x k :
  u32 x -> 0 <= k <= 32 -> 0 <= Z.shiftr x k < 2 ^ (32 - k).
Proof.
  unfold u32. intros Hx Hk. rewrite Z.shiftr_div_pow2 by lia.
  split; [apply Z.div_pos; lia|].
  apply Z.div_lt_upper_bound; [lia|].
  rewrite <- Z.pow_add_r by lia. replace (k + (32 - k)) with 32 by lia. lia.
Qed.

(** Masking with [2^n - 1] keeps the low [n] bits. *)
Lemma land_ones_bound x n : 0 <= n -> 0 <= Z.land x (Z.ones n) < 2 ^ n.
Proof.
  intros Hn. rewrite Z.land_ones by lia. apply Z.mod_pos_bound.
  apply Z.pow_pos_nonneg; lia.
Qed.

(** A test [(x & (1 << n)) > 0] reads bit [n]. *)
Lemma land_pow2_gtb x n : 0 <= n -> (Z.land x (2 ^ n) >? 0) = Z.testbit x n.
Proof.
  intros Hn.
  assert (Z.land x (2 ^ n) = if Z.testbit x n then 2 ^ n else 0) as ->.
  { apply Z.bits_inj'. intros i Hi. rewrite Z.land_spec, Z.pow2_bits_eqb by lia.
    destruct (Z.eqb_spec n i) as [<-|Hne].
    - destruct (Z.testbit x n); [by rewrite Z.pow2_bits_true|by rewrite Z.bits_0].
    - destruct (Z.testbit x n).
      + rewrite Z.pow2_bits_false by lia. apply andb_false_r.
      + rewrite Z.bits_0. apply andb_false_r. }
  destruct (Z.testbit x n); [|done].
  apply Z.gtb_lt. apply Z.pow_pos_nonneg; lia.
Qed.

(** A value below [2^k] has no bit at or above [k]. *)
Lemma testbit_small_high c k i : 0 <= c < 2 ^ k -> k <= i -> Z.testbit c i = false.
Proof.
  intros Hc Hi. destruct (Z.eq_dec c 0) as [->|Hc0]; [apply Z.bits_0|].
  apply Z.bits_above_log2; [lia|].
  assert (Z.log2 c < k) by (apply Z.log2_lt_pow2; lia). lia.
Qed.

(** Packing [x << k | c] with [c < 2^k] and shifting back gives [x]. *)
Lemma shiftr_lor_shiftl x c k :
  0 <= k -> 0 <= c < 2 ^ k -> Z.shiftr (Z.lor (Z.shiftl x k) c) k = x.
Proof.
  intros Hk Hc. apply Z.bits_inj'. intros i Hi.
  rewrite Z.shiftr_spec, Z.lor_spec, Z.shiftl_spec by lia.
  rewrite (testbit_small_high c k) by lia.
  rewrite orb_false_r. f_equal. lia.
Qed.

(** The low [k] bits of [x << k | c] are those of [c]. *)
Lemma land_lor_shiftl_low x c k m :
  0 <= k -> 0 <= m < 2 ^ k -> Z.land (Z.lor (Z.shiftl x k) c) m = Z.land c m.
Proof.
  intros Hk Hm. apply Z.bits_inj'. intros i Hi.
  rewrite !Z.land_spec, Z.lor_spec, Z.shiftl_spec by lia.
  destruct (Z.ltb_spec i k).
  - rewrite Z.testbit_neg_r by lia. done.
  - rewrite (testbit_small_high m k i) by lia. by rewrite !andb_false_r.
Qed.

(** Bits below [k] of [x << k] are zero. *)
Lemma land_shiftl_low x k m :
  0 <= k -> 0 <= m < 2 ^ k -> Z.land (Z.shiftl x k) m = 0.
Proof.
  intros Hk Hm. rewrite <- (Z.lor_0_r (Z.shiftl x k)).
  rewrite land_lor_shiftl_low by done. apply Z.land_0_l.
Qed.

(** [x << k | c] with [c < 2^k] is the sum [x * 2^k + c]. *)
Lemma lor_shiftl_add x c k :
  0 <= k -> 0 <= c < 2 ^ k -> Z.lor (Z.shiftl x k) c = x * 2 ^ k + c.
Proof.
  intros Hk Hc.
  assert (Z.land (Z.shiftl x k) c = 0) as H0 by (apply land_shiftl_low; lia).
  rewrite <- Z.lxor_lor, <- Z.add_nocarry_lxor by done.
  by rewrite Z.shiftl_mul_pow2.
Qed.

(** ** Automation *)

Create HintDb can_bits discriminated.
Create Rewrite HintDb can_simpl.

#[export] Hint Resolve shiftr_u32_bound land_ones_bound int32_of_uint32_range : can_bits.
#[export] Hint Rewrite c_true_b2z : can_simpl.

(** Fails when [t] still contains an integer comparison. *)
Ltac no_cmp t :=
  lazymatch t with
  | context [Z.eqb _ _] => fail
  | context [Z.ltb _ _] => fail
  | _ => idtac
  end.

(** Case analysis on the integer comparisons of a hook, innermost first,
    closing the contradictory cases with [lia]. *)
Ltac zcase :=
  repeat match goal with
  | |- context [Z.eqb ?a ?b] =>
      no_cmp a; no_cmp b; destruct (Z.eqb_spec a b); try (exfalso; lia)
  | |- context [Z.ltb ?a ?b] =>
      no_cmp a; no_cmp b; destruct (Z.ltb_spec a b); try (exfalso; lia)
  end.
