(* ===== verification/Mailbox.v ===== *)
(** * Frames: the bxCAN mailbox and its decoding

    The hooks of [safety_vw.h] receive a [CAN_FIFOMailBox_TypeDef *]: four
    32-bit registers.  This file holds the register record, the decoding
    steps exactly as the hooks write them ([rx_bus_number], [rir_extended],
    [rx_addr] of [vw_rx_hook]; [fwd_addr] of [vw_fwd_hook]), the logical
    frame of the spec ([Frame]) with the driver's encoding into registers,
    and the theorems that the decoding inverts the encoding and respects
    the widths of the fields. *)

From Stdlib Require Import ZArith Lia Bool.
From stdpp Require Import base decidable numbers.
From S2P Require Import Prelude.

Open Scope Z_scope.
Local Open Scope c_scope.

(** ** The mailbox registers *)

(** [CAN_FIFOMailBox_TypeDef] of the STM32 headers: identifier register,
    length/time register (panda keeps the bus number in bits 4..11),
    low and high data registers. *)
Record CAN_FIFOMailBox_TypeDef := mk_mailbox {
  RIR : Z;
  RDTR : Z;
  RDLR : Z;
  RDHR : Z
}.

#[export] Instance mailbox_eq_dec : EqDecision CAN_FIFOMailBox_TypeDef.
Proof. solve_decision. Defined.

(** Every register holds an [uint32_t]. *)
Definition mailbox_wf (m : CAN_FIFOMailBox_TypeDef) : Prop :=
  u32 (RIR m) /\ u32 (RDTR m) /\ u32 (RDLR m) /\ u32 (RDHR m).

#[export] Instance mailbox_wf_dec m : Decision (mailbox_wf m).
Proof. unfold mailbox_wf. apply _. Defined.

(** ** Decoding, as the hooks do it *)

(** [int bus_number = (to_push->RDTR >> 4) & 0xFF;] *)
Definition rx_bus_number (to_push : CAN_FIFOMailBox_TypeDef) : Z :=
  Z.land (RDTR to_push >> 4) 0xFF.

(** [if (to_push->RIR & 4)]: the IDE bit. *)
Definition rir_extended (to_push : CAN_FIFOMailBox_TypeDef) : bool :=
  c_true (Z.land (RIR to_push) 4).

(** [addr = to_push->RIR >> 3] for an extended frame,
    [addr = to_push->RIR >> 21] for a standard one. *)
Definition rx_addr (to_push : CAN_FIFOMailBox_TypeDef) : Z :=
  if rir_extended to_push then RIR to_push >> 3 else RIR to_push >> 21.

(** [int32_t addr = to_fwd->RIR >> 21;]: the forwarding hook always uses
    the standard-id shift, whatever the IDE bit. *)
Definition fwd_addr (to_fwd : CAN_FIFOMailBox_TypeDef) : Z :=
  int32_of_uint32 (RIR to_fwd >> 21).

(** ** The logical frame of the spec *)

Record Frame := mk_frame {
  bus : Z;
  is_extended : bool;
  arbitration_id : Z;
  data_low : Z;
  data_high : Z
}.

#[export] Instance frame_eq_dec : EqDecision Frame.
Proof. solve_decision. Defined.

(** The width of an identifier: 29 bits if extended, 11 otherwise. *)
Definition id_bits (extended : bool) : Z := if extended then 29 else 11.

Definition frame_wf (f : Frame) : Prop :=
  0 <= bus f < 2 ^ 8 /\ 0 <= arbitration_id f < 2 ^ id_bits (is_extended f) /\
  u32 (data_low f) /\ u32 (data_high f).

#[export] Instance frame_wf_dec f : Decision (frame_wf f).
Proof. unfold frame_wf. apply _. Defined.

(** The frame a mailbox carries, read with the decoding of [vw_rx_hook]. *)
Definition frame_of_mailbox (m : CAN_FIFOMailBox_TypeDef) : Frame := {|
  bus := rx_bus_number m;
  is_extended := rir_extended m;
  arbitration_id := rx_addr m;
  data_low := RDLR m;
  data_high := RDHR m
|}.

(** The bxCAN layout the receive path fills: STID at bits 21..31 or EXID
    at bits 3..31 with IDE (bit 2) set; panda's bus number at RDTR bits
    4..11 (DLC and time stamp left zero). *)
Definition mailbox_of_frame (f : Frame) : CAN_FIFOMailBox_TypeDef := {|
  RIR := if is_extended f then Z.lor (arbitration_id f << 3) 4
         else arbitration_id f << 21;
  RDTR := bus f << 4;
  RDLR := data_low f;
  RDHR := data_high f
|}.

(** ** Theorems *)

Lemma rx_bus_number_bound m : 0 <= rx_bus_number m < 2 ^ 8.
Proof. unfold rx_bus_number. change 0xFF with (Z.ones 8). by apply land_ones_bound. Qed.

(** The forwarding hook's decoding is within 11 bits, so the implicit
    conversion to [int32_t] changes nothing. *)
Lemma fwd_addr_spec m : u32 (RIR m) -> fwd_addr m = RIR m >> 21 /\ 0 <= fwd_addr m < 2 ^ 11.
Proof.
  intros H. pose proof (shiftr_u32_bound (RIR m) 21 H) as B.
  unfold fwd_addr. rewrite int32_of_uint32_small by lia. split; [done | lia].
Qed.

(** On a standard frame, the forwarding hook reads the id the receive
    hook reads. *)
Lemma fwd_addr_standard m :
  u32 (RIR m) -> rir_extended m = false -> fwd_addr m = rx_addr m.
Proof.
  intros Hw He. unfold rx_addr. rewrite He. by apply fwd_addr_spec.
Qed.

(** On an extended frame, it reads the top 11 of the 29 id bits. *)
Lemma fwd_addr_extended m :
  u32 (RIR m) -> rir_extended m = true -> fwd_addr m = rx_addr m >> 18.
Proof.
  intros Hw He. unfold rx_addr. rewrite He, Z.shiftr_shiftr by lia.
  by apply fwd_addr_spec.
Qed.

Lemma rir_extended_encode f : rir_extended (mailbox_of_frame f) = is_extended f.
Proof.
  unfold rir_extended, mailbox_of_frame; simpl. destruct (is_extended f).
  - by rewrite land_lor_shiftl_low by lia.
  - by rewrite land_shiftl_low by lia.
Qed.

Lemma rx_addr_encode f :
  frame_wf f -> rx_addr (mailbox_of_frame f) = arbitration_id f.
Proof.
  intros (_ & Hid & _). unfold rx_addr. rewrite rir_extended_encode.
  unfold mailbox_of_frame, id_bits in *; simpl.
  destruct (is_extended f).
  - by apply shiftr_lor_shiftl; lia.
  - rewrite <- (Z.lor_0_r (arbitration_id f << 21)).
    by apply shiftr_lor_shiftl; lia.
Qed.

Lemma rx_bus_number_encode f : frame_wf f -> rx_bus_number (mailbox_of_frame f) = bus f.
Proof.
  intros (Hb & _). unfold rx_bus_number, mailbox_of_frame; simpl.
  rewrite <- (Z.lor_0_r (bus f << 4)), shiftr_lor_shiftl by lia.
  change 0xFF with (Z.ones 8). rewrite Z.land_ones by lia.
  apply Z.mod_small. lia.
Qed.

(** C19 (roundtrip). Decoding a mailbox with the receive hook's shifts
    gives back every field of the logical frame that was encoded into it:
    the bus number, the extended flag, the 11- or 29-bit identifier and
    both data words. *)
Theorem frame_of_mailbox_of_frame f :
  frame_wf f -> frame_of_mailbox (mailbox_of_frame f) = f.
Proof.
  intros Hwf. unfold frame_of_mailbox.
  rewrite rx_bus_number_encode, rir_extended_encode, rx_addr_encode by done.
  by destruct f.
Qed.

(** The encoding of a well-formed frame fills four [uint32_t] registers. *)
Lemma mailbox_of_frame_wf f : frame_wf f -> mailbox_wf (mailbox_of_frame f).
Proof.
  intros (Hb & Hid & Hl & Hh). unfold mailbox_of_frame, mailbox_wf, u32, id_bits in *; simpl.
  destruct (is_extended f); rewrite ?lor_shiftl_add, !Z.shiftl_mul_pow2 by lia;
    repeat split; lia.
Qed.

(** C20 (bounds). Every register contents decodes to a well-formed frame:
    the bus number fits in 8 bits, an extended id in 29 bits and a
    standard id in 11 bits, whatever the other bits of RIR hold. *)
Theorem frame_of_mailbox_wf m : mailbox_wf m -> frame_wf (frame_of_mailbox m).
Proof.
  intros (Hr & _ & Hl & Hh). unfold frame_wf, frame_of_mailbox, rx_addr, id_bits; simpl.
  pose proof (rx_bus_number_bound m).
  pose proof (shiftr_u32_bound (RIR m) 3 Hr ltac:(lia)).
  pose proof (shiftr_u32_bound (RIR m) 21 Hr ltac:(lia)).
  refine (conj _ (conj _ (conj Hl Hh))); [lia|].
  destruct (rir_extended m); simpl in *; lia.
Qed.

(** ** Witnesses *)

(** The ignition frame of the spec's first scenario survives the round
    trip. *)
Lemma frame_of_mailbox_of_frame_witness :
  frame_wf (mk_frame 0 false 0x3C0 0x200 0) /\
  frame_of_mailbox (mailbox_of_frame (mk_frame 0 false 0x3C0 0x200 0)) =
  mk_frame 0 false 0x3C0 0x200 0.
Proof.
  assert (H : frame_wf (mk_frame 0 false 0x3C0 0x200 0))
    by (unfold frame_wf, u32, id_bits; simpl; lia).
  split; [exact H | apply frame_of_mailbox_of_frame; exact H].
Defined.

(** An extended frame with every RIR bit set decodes within the widths. *)
Lemma frame_of_mailbox_wf_witness :
  mailbox_wf (mk_mailbox 0xFFFFFFFF 0xFFFFFFFF 0 1) /\
  frame_wf (frame_of_mailbox (mk_mailbox 0xFFFFFFFF 0xFFFFFFFF 0 1)).
Proof.
  assert (H : mailbox_wf (mk_mailbox 0xFFFFFFFF 0xFFFFFFFF 0 1))
    by (unfold mailbox_wf, u32; simpl; lia).
  split; [exact H | apply frame_of_mailbox_wf; exact H].
Defined.
