(* ===== verification/Hooks.v ===== *)
(** * The safety hook interface

    The framework's [safety_hooks] table (declared outside [src/], in
    [safety.h]) binds six function pointers per vehicle; each acts on the
    process's globals.  Here a table over a state type [S] is a record of
    [St S] computations, the typed routing decision replaces the [-1]
    sentinel, [hook_call] lists the calls a gateway can make, and
    [HooksContract] is what a policy promises the gateway (spec, sections
    4.2 and 6). *)

From Stdlib Require Import ZArith Lia Bool List.
From stdpp Require Import base decidable numbers.
From S2P Require Import Prelude Mailbox.

Open Scope Z_scope.

(** ** The hook table *)

(** [typedef struct { init; rx; tx; tx_lin; ignition; fwd; } safety_hooks]:
    [void init(int16_t)], [void rx(CAN_FIFOMailBox_TypeDef * )],
    [int tx(CAN_FIFOMailBox_TypeDef * )],
    [int tx_lin(int lin_num, uint8_t *data, int len)], [int ignition(void)],
    [int fwd(int bus_num, CAN_FIFOMailBox_TypeDef * )]. *)
Record safety_hooks (S : Type) := mk_hooks {
  init : Z -> St S unit;
  rx : CAN_FIFOMailBox_TypeDef -> St S unit;
  tx : CAN_FIFOMailBox_TypeDef -> St S Z;
  tx_lin : Z -> list Byte.byte -> Z -> St S Z;
  ignition : St S Z;
  fwd : Z -> CAN_FIFOMailBox_TypeDef -> St S Z
}.

Arguments mk_hooks {S}.
Arguments init {S}.
Arguments rx {S}.
Arguments tx {S}.
Arguments tx_lin {S}.
Arguments ignition {S}.
Arguments fwd {S}.

(** ** Routing decisions *)

(** The spec's [ForwardDecision]: a destination bus, or drop. *)
Inductive fwd_decision :=
  | Forward (dst : Z)
  | Drop.

#[export] Instance fwd_decision_eq_dec : EqDecision fwd_decision.
Proof. solve_decision. Defined.

(** How the gateway reads the [int] a forwarding hook returns:
    [if (bus_fwd_num != -1)] forwards onto [bus_fwd_num]. *)
Definition fwd_decision_of_int (n : Z) : fwd_decision :=
  if n =? -1 then Drop else Forward n.

(** ** Calls of the gateway into a policy *)

Inductive hook_call :=
  | CallInit (param : Z)
  | CallRx (to_push : CAN_FIFOMailBox_TypeDef)
  | CallTx (to_send : CAN_FIFOMailBox_TypeDef)
  | CallTxLin (lin_num : Z) (data : list Byte.byte) (len : Z)
  | CallIgnition
  | CallFwd (bus_num : Z) (to_fwd : CAN_FIFOMailBox_TypeDef).

(** The state a call leaves behind. *)
Definition exec_call {S} (H : safety_hooks S) (c : hook_call) (s : S) : S :=
  match c with
  | CallInit p => st_exec (init H p) s
  | CallRx m => st_exec (rx H m) s
  | CallTx m => st_exec (tx H m) s
  | CallTxLin n d l => st_exec (tx_lin H n d l) s
  | CallIgnition => st_exec (ignition H) s
  | CallFwd b m => st_exec (fwd H b m) s
  end.

(** A sequence of calls, oldest first. *)
Definition exec_calls {S} (H : safety_hooks S) (cs : list hook_call) (s : S) : S :=
  fold_left (fun s c => exec_call H c s) cs s.

(** The states a policy reaches from [s0] through any calls. *)
Inductive reachable {S} (H : safety_hooks S) (s0 : S) : S -> Prop :=
  | reach_init : reachable H s0 s0
  | reach_call c s : reachable H s0 s -> reachable H s0 (exec_call H c s).

(** ** The contract a policy promises the gateway *)

(** [ignition] is a pure read; [fwd] is a decision that neither changes
    the state nor answers anything but [-1] or a bus number. *)
Class HooksContract {S} (H : safety_hooks S) : Prop := {
  ignition_read_only s : st_exec (ignition H) s = s;
  fwd_read_only b m s : st_exec (fwd H b m) s = s;
  fwd_result_range b m s : st_eval (fwd H b m) s = -1 \/ 0 <= st_eval (fwd H b m) s
}.

(** ** Lemmas *)

Lemma exec_calls_app {S} (H : safety_hooks S) cs1 cs2 s :
  exec_calls H (cs1 ++ cs2) s = exec_calls H cs2 (exec_calls H cs1 s).
Proof. unfold exec_calls. apply fold_left_app. Qed.

Lemma exec_calls_snoc {S} (H : safety_hooks S) cs c s :
  exec_calls H (cs ++ [c]) s = exec_call H c (exec_calls H cs s).
Proof. by rewrite exec_calls_app. Qed.

(** The reachable states are exactly those of finite call sequences. *)
Lemma reachable_exec_calls {S} (H : safety_hooks S) s0 s :
  reachable H s0 s <-> exists cs, s = exec_calls H cs s0.
Proof.
  split.
  - induction 1 as [|c s _ [cs ->]]; [by exists []|].
    exists (cs ++ [c]). by rewrite exec_calls_snoc.
  - intros [cs ->]. induction cs as [|c cs IH] using rev_ind; [constructor|].
    rewrite exec_calls_snoc. by constructor.
Qed.

(** Under the contract, a forwarding decision is [Drop] or a real bus. *)
Lemma fwd_decision_range {S} (H : safety_hooks S) `{!HooksContract H} b m s :
  match fwd_decision_of_int (st_eval (fwd H b m) s) with
  | Forward d => 0 <= d
  | Drop => True
  end.
Proof.
  unfold fwd_decision_of_int.
  destruct (fwd_result_range b m s) as [E|E]; rewrite ?E; zcase; done.
Qed.
