(* ===== verification/SafetyVW.v ===== *)
(** * The VW safety hooks ([src/panda/board/safety/safety_vw.h])

    The globals the file reads and writes become the record [globals];
    each hook is an [St globals] computation with the C's branches and
    early returns; [vw_hooks] is the table of line 71.  The theorems give
    each hook's behaviour on every branch, the range invariant of
    [vw_ignition_started] over any sequence of calls, the ignition level
    after any sequence of calls, and the instance of the interface
    contract. *)

From Stdlib Require Import ZArith Lia Bool List.
From stdpp Require Import base decidable numbers tactics.
From S2P Require Import Prelude Mailbox Hooks.

Open Scope Z_scope.

(** ** State *)

(** [int vw_ignition_started = 0;] (line 1) and the framework's
    [int controls_allowed] that [vw_init] writes. *)
Record globals := mk_globals {
  controls_allowed : Z;
  vw_ignition_started : Z
}.

#[export] Instance globals_eq_dec : EqDecision globals.
Proof. solve_decision. Defined.

Definition set_vw_ignition_started (v : Z) (g : globals) : globals :=
  {| controls_allowed := controls_allowed g; vw_ignition_started := v |}.

Definition set_controls_allowed (v : Z) (g : globals) : globals :=
  {| controls_allowed := v; vw_ignition_started := vw_ignition_started g |}.

(** Both globals start at zero (static initialisation). *)
Definition initial_globals : globals :=
  {| controls_allowed := 0; vw_ignition_started := 0 |}.

(** ** The hooks *)

(** [vw_rx_hook]: a frame from bus 0 with address 0x3c0 sets the
    ignition flag to bit 9 of RDLR; every other frame leaves it. *)
Definition vw_rx_hook (to_push : CAN_FIFOMailBox_TypeDef) : St globals unit :=
  let bus_number := rx_bus_number to_push in
  let addr := rx_addr to_push in
  if (addr =? 0x3c0) && (bus_number =? 0) then
    let ign := Z.land (RDLR to_push) 0x200 in
    st_modify (set_vw_ignition_started (Z.b2z (ign >? 0)))
  else mret tt.

(** [int vw_ign_hook() { return vw_ignition_started; }] *)
Definition vw_ign_hook : St globals Z :=
  g ← st_get; mret (vw_ignition_started g).

(** [static void vw_init(int16_t param) { controls_allowed = 1; }] *)
Definition vw_init (param : Z) : St globals unit :=
  st_modify (set_controls_allowed 1).

(** [static int vw_tx_hook(...) { return true; }] *)
Definition vw_tx_hook (to_send : CAN_FIFOMailBox_TypeDef) : St globals Z :=
  mret 1.

(** [static int vw_tx_lin_hook(int lin_num, uint8_t *data, int len)
    { return true; }] *)
Definition vw_tx_lin_hook (lin_num : Z) (data : list Byte.byte) (len : Z) : St globals Z :=
  mret 1.

(** [vw_fwd_hook]: bus 0 goes to bus 1; bus 1 goes to bus 0 unless the
    (standard-shift) address is 0x126; anything else is dropped. *)
Definition vw_fwd_hook (bus_num : Z) (to_fwd : CAN_FIFOMailBox_TypeDef) : St globals Z :=
  let addr := fwd_addr to_fwd in
  if bus_num =? 0 then mret 1
  else if bus_num =? 1 then
    if addr =? 0x126 then mret (-1) else mret 0
  else mret (-1).

(** [const safety_hooks vw_hooks = { ... };] *)
Definition vw_hooks : safety_hooks globals := {|
  init := vw_init;
  rx := vw_rx_hook;
  tx := vw_tx_hook;
  tx_lin := vw_tx_lin_hook;
  ignition := vw_ign_hook;
  fwd := vw_fwd_hook
|}.

(** ** Derived notions *)

(** The frames [vw_rx_hook] takes the ignition level from. *)
Definition ignition_frame (m : CAN_FIFOMailBox_TypeDef) : bool :=
  (rx_addr m =? 0x3c0) && (rx_bus_number m =? 0).

(** The level such a frame carries: bit 9 of RDLR, as a C boolean. *)
Definition ignition_level (m : CAN_FIFOMailBox_TypeDef) : Z :=
  Z.b2z (Z.testbit (RDLR m) 9).

(** The most recent ignition frame of a call sequence (oldest first). *)
Fixpoint last_ignition_frame (cs : list hook_call) : option CAN_FIFOMailBox_TypeDef :=
  match cs with
  | [] => None
  | c :: cs' =>
      match last_ignition_frame cs' with
      | Some m => Some m
      | None =>
          match c with
          | CallRx m => if ignition_frame m then Some m else None
          | _ => None
          end
      end
  end.

(** Whether a call is [init], the only writer of [controls_allowed]. *)
Definition call_is_init (c : hook_call) : bool :=
  match c with CallInit _ => true | _ => false end.

(** The range invariant of the flag: a C boolean. *)
Definition vw_inv (g : globals) : Prop :=
  vw_ignition_started g = 0 \/ vw_ignition_started g = 1.

(** ** Behaviour of each hook *)

(** [(x & 0x200) > 0] reads bit 9. *)
Lemma ign_mask_bit9 x : (Z.land x 0x200 >? 0) = Z.testbit x 9.
Proof. change 0x200 with (2 ^ 9). by apply land_pow2_gtb. Qed.

(** C4 (functional). On an ignition frame (bus 0, address 0x3c0),
    [vw_rx_hook] sets [vw_ignition_started] to bit 9 of RDLR (0 or 1) and
    changes nothing else. *)
Theorem vw_rx_hook_ignition_frame m g :
  ignition_frame m = true ->
  vw_rx_hook m g = (tt, set_vw_ignition_started (ignition_level m) g).
Proof.
  unfold ignition_frame, vw_rx_hook, ignition_level. intros ->.
  by rewrite <- ign_mask_bit9.
Qed.

(** C5 (functional). Any other frame (another bus, another address, or
    either) leaves the globals as they were. *)
Theorem vw_rx_hook_other_frame m g :
  ignition_frame m = false -> vw_rx_hook m g = (tt, g).
Proof.
  unfold ignition_frame, vw_rx_hook. intros E.
  destruct (rx_addr m =? 0x3c0), (rx_bus_number m =? 0); simpl in *; done.
Qed.

(** Both branches of the receive hook in one equation. *)
Lemma vw_rx_hook_spec m g :
  vw_rx_hook m g =
  (tt, if ignition_frame m then set_vw_ignition_started (ignition_level m) g else g).
Proof.
  unfold vw_rx_hook, ignition_frame, ignition_level.
  destruct (_ && _); [by rewrite ign_mask_bit9 | done].
Qed.

(** Only the receive hook writes the ignition flag. *)
Lemma exec_call_vw_ignition c g :
  vw_ignition_started (exec_call vw_hooks c g) =
  match c with
  | CallRx m => vw_ignition_started (st_exec (vw_rx_hook m) g)
  | _ => vw_ignition_started g
  end.
Proof.
  destruct c as [p|m|m|n d l| |b m]; try done.
  cbn. unfold st_exec, vw_fwd_hook. by repeat case_match.
Qed.

(** The ignition flag after one call, with the receive hook's level. *)
Lemma exec_call_vw_ignition_level c g :
  vw_ignition_started (exec_call vw_hooks c g) =
  match c with
  | CallRx m => if ignition_frame m then ignition_level m else vw_ignition_started g
  | _ => vw_ignition_started g
  end.
Proof.
  rewrite exec_call_vw_ignition. destruct c; try done.
  unfold st_exec. rewrite vw_rx_hook_spec. by destruct (ignition_frame to_push).
Qed.

(** The framework flag after one call: only [init] writes it. *)
Lemma exec_call_controls_allowed c g :
  controls_allowed (exec_call vw_hooks c g) =
  match c with
  | CallInit _ => 1
  | _ => controls_allowed g
  end.
Proof.
  destruct c as [p|m|m|n d l| |b m]; try done; cbn;
    unfold st_exec, vw_rx_hook, vw_fwd_hook, st_modify, st_get, mbind, St_bind, mret, St_ret;
    by repeat case_match.
Qed.

Lemma vw_ign_hook_read g : vw_ign_hook g = (vw_ignition_started g, g).
Proof. done. Qed.

(** C6 (invariant). After any sequence of calls, the ignition hook
    returns the level carried by the most recent ignition frame, or the
    value it had before the sequence when none was received: the flag is
    a level detector of the last qualifying frame, never latched. *)
Theorem vw_ignition_after_calls cs g :
  st_eval vw_ign_hook (exec_calls vw_hooks cs g) =
  match last_ignition_frame cs with
  | Some m => ignition_level m
  | None => vw_ignition_started g
  end.
Proof.
  unfold st_eval. rewrite vw_ign_hook_read. simpl.
  revert g. induction cs as [|c cs IH]; intros g; [done|].
  simpl. rewrite IH, exec_call_vw_ignition.
  destruct (last_ignition_frame cs); [done|].
  destruct c; try done. cbn.
  unfold st_exec, vw_rx_hook, ignition_frame, ignition_level, st_modify, st_get,
    mbind, St_bind, mret, St_ret.
  destruct (_ && _); cbn; [by rewrite ign_mask_bit9 | done].
Qed.

Lemma b2z_range b : Z.b2z b = 0 \/ Z.b2z b = 1.
Proof. destruct b; auto. Qed.

Lemma vw_inv_exec_call c g : vw_inv g -> vw_inv (exec_call vw_hooks c g).
Proof.
  unfold vw_inv. rewrite exec_call_vw_ignition. intros Hg.
  destruct c; try done. cbn.
  unfold st_exec, vw_rx_hook, st_modify, st_get, mbind, St_bind, mret, St_ret.
  repeat case_match; cbn; auto using b2z_range.
Qed.

(** C16 (invariant). From a state where [vw_ignition_started] is a C
    boolean (0 or 1), every state the hooks reach by any calls keeps it
    0 or 1; in particular every state reachable from the initial
    globals. *)
Theorem vw_inv_reachable g0 g : vw_inv g0 -> reachable vw_hooks g0 g -> vw_inv g.
Proof. intros H0 Hr. induction Hr; [done|]. by apply vw_inv_exec_call. Qed.

(** C17 (functional). After any sequence of calls, [controls_allowed] is 1
    if [vw_init] was called (whatever its parameter) and otherwise keeps
    its previous value: no other hook writes it. *)
Theorem vw_controls_allowed_after_calls cs g :
  controls_allowed (exec_calls vw_hooks cs g) =
  if existsb call_is_init cs then 1 else controls_allowed g.
Proof.
  revert g. induction cs as [|c cs IH]; intros g; [done|].
  simpl. rewrite IH, exec_call_controls_allowed.
  destruct c; simpl; by destruct (existsb call_is_init cs).
Qed.

(** The forwarding hook answers -1, 0 or 1 and reads no global. *)
Lemma vw_fwd_hook_cases b m g :
  vw_fwd_hook b m g =
  (if b =? 0 then 1 else if b =? 1 then (if fwd_addr m =? 0x126 then -1 else 0) else -1, g).
Proof. unfold vw_fwd_hook. by zcase. Qed.

(** C1 (safety). The forwarding hook routes a frame onto the car's bus 0
    exactly when it came from bus 1 and its address, read with the
    standard-id shift, is not 0x126. *)
Theorem vw_fwd_hook_to_car b m g :
  st_eval (vw_fwd_hook b m) g = 0 <-> b = 1 /\ fwd_addr m <> 0x126.
Proof. unfold st_eval, vw_fwd_hook. zcase; simpl; lia. Qed.

(** C3 (functional). It routes a frame onto bus 1 exactly when the frame
    came from bus 0, with no filtering. *)
Theorem vw_fwd_hook_to_ext b m g : st_eval (vw_fwd_hook b m) g = 1 <-> b = 0.
Proof. unfold st_eval, vw_fwd_hook. zcase; simpl; lia. Qed.

(** C2 (safety). It drops a frame exactly when the frame came from a bus
    other than 0 and 1 (fail closed) or from bus 1 with address 0x126. *)
Theorem vw_fwd_hook_drop b m g :
  st_eval (vw_fwd_hook b m) g = -1 <->
  (b <> 0 /\ b <> 1) \/ (b = 1 /\ fwd_addr m = 0x126).
Proof. unfold st_eval, vw_fwd_hook. zcase; simpl; lia. Qed.

(** C18 (error). The transmit hooks never deny: both approve (return 1)
    every request, whatever the frame, LIN channel or payload, and leave
    the globals unchanged (the placeholder marked FIXME in the source). *)
Theorem vw_tx_hooks_approve_all m n d l g :
  vw_tx_hook m g = (1, g) /\ vw_tx_lin_hook n d l g = (1, g).
Proof. done. Qed.

(** ** The interface contract *)

#[export] Instance vw_hooks_contract : HooksContract vw_hooks.
Proof.
  split.
  - done.
  - intros b m s. cbn. unfold st_exec, vw_fwd_hook. by repeat case_match.
  - intros b m s. cbn. unfold st_eval, vw_fwd_hook. repeat case_match; simpl; lia.
Qed.

(** ** Witnesses *)

(** The spec's scenario 1: bus 0, id 0x3C0, data_low 0x200. *)
Lemma vw_rx_hook_ignition_frame_witness :
  ignition_frame (mailbox_of_frame (mk_frame 0 false 0x3C0 0x200 0)) = true /\
  vw_rx_hook (mailbox_of_frame (mk_frame 0 false 0x3C0 0x200 0)) initial_globals =
  (tt, set_vw_ignition_started
         (ignition_level (mailbox_of_frame (mk_frame 0 false 0x3C0 0x200 0)))
         initial_globals).
Proof.
  split; [reflexivity | apply vw_rx_hook_ignition_frame; reflexivity].
Defined.

(** The same id on bus 1 is ignored. *)
Lemma vw_rx_hook_other_frame_witness :
  ignition_frame (mailbox_of_frame (mk_frame 1 false 0x3C0 0x200 0)) = false /\
  vw_rx_hook (mailbox_of_frame (mk_frame 1 false 0x3C0 0x200 0)) (mk_globals 1 1) =
  (tt, mk_globals 1 1).
Proof.
  split; [reflexivity | apply vw_rx_hook_other_frame; reflexivity].
Defined.

(** The state after an ignition frame, reached from the initial globals. *)
Lemma vw_inv_reachable_witness :
  vw_inv initial_globals /\
  reachable vw_hooks initial_globals
    (exec_call vw_hooks (CallRx (mailbox_of_frame (mk_frame 0 false 0x3C0 0x200 0)))
       initial_globals) /\
  vw_inv (exec_call vw_hooks (CallRx (mailbox_of_frame (mk_frame 0 false 0x3C0 0x200 0)))
            initial_globals).
Proof.
  assert (H0 : vw_inv initial_globals) by (left; reflexivity).
  assert (Hr : reachable vw_hooks initial_globals
    (exec_call vw_hooks (CallRx (mailbox_of_frame (mk_frame 0 false 0x3C0 0x200 0)))
       initial_globals)) by (apply reach_call; apply reach_init).
  split; [exact H0|]. split; [exact Hr|].
  exact (vw_inv_reachable _ _ H0 Hr).
Defined.
