(* ===== verification/VWSpec.v ===== *)
(** * The abstract VW policy and the refinement

    The spec (section 4.3) describes the policy over logical frames with a
    boolean ignition flag, a boolean transmit-enable flag and a typed
    forwarding decision.  [policy_state] and the [spec_*] functions state
    it; [refines] relates the C globals to it (an [int] as C's truth
    value).  The theorems show that every hook call preserves the
    relation, that the answers agree on standard frames, and what happens
    on extended frames: the forwarding hook's decoding parts from the
    spec's, and the receive hook, against its own comment, reads an
    extended 0x3C0 like the standard one. *)

From Stdlib Require Import ZArith Lia Bool List.
From stdpp Require Import base decidable numbers.
From S2P Require Import Prelude Mailbox Hooks SafetyVW.

Open Scope Z_scope.

(** ** The abstract policy *)

Record policy_state := mk_policy {
  ignition_started : bool;
  controls_enabled : bool
}.

#[export] Instance policy_state_eq_dec : EqDecision policy_state.
Proof. solve_decision. Defined.

(** At construction the ignition flag is false. *)
Definition spec_initial (controls : bool) : policy_state :=
  {| ignition_started := false; controls_enabled := controls |}.

(** [init(param)] ignores [param] and enables controls. *)
Definition spec_init (param : Z) (p : policy_state) : policy_state :=
  {| ignition_started := ignition_started p; controls_enabled := true |}.

(** Ignition tracking: a frame from bus 0 with id 0x3C0 sets the flag to
    [(data_low & 0x200) > 0]; any other frame leaves it. *)
Definition spec_rx (f : Frame) (p : policy_state) : policy_state :=
  if (bus f =? 0) && (arbitration_id f =? 0x3C0) then
    {| ignition_started := Z.land (data_low f) 0x200 >? 0;
       controls_enabled := controls_enabled p |}
  else p.

(** Transmit approval: unconditional. *)
Definition spec_tx (f : Frame) : bool := true.

(** The three-way forwarding branch on the source bus. *)
Definition spec_fwd (source_bus : Z) (f : Frame) : fwd_decision :=
  if source_bus =? 0 then Forward 1
  else if source_bus =? 1 then
    if arbitration_id f =? 0x126 then Drop else Forward 0
  else Drop.

(** The abstract effect of a call of the gateway. *)
Definition spec_exec_call (c : hook_call) (p : policy_state) : policy_state :=
  match c with
  | CallInit param => spec_init param p
  | CallRx m => spec_rx (frame_of_mailbox m) p
  | _ => p
  end.

Definition spec_exec_calls (cs : list hook_call) (p : policy_state) : policy_state :=
  fold_left (fun p c => spec_exec_call c p) cs p.

(** ** The refinement relation *)

(** Each C [int] flag, read as C's truth value, is the abstract flag. *)
Definition refines (g : globals) (p : policy_state) : Prop :=
  c_true (vw_ignition_started g) = ignition_started p /\
  c_true (controls_allowed g) = controls_enabled p.

(** A frame the forwarding theorems of the spec speak of: registers in
    range and a standard identifier. *)
Definition standard_frame (m : CAN_FIFOMailBox_TypeDef) : Prop :=
  u32 (RIR m) /\ rir_extended m = false.

(** ** Refinement of the state *)

(** The receive hook's qualifying test is the spec's, on the decoded
    frame. *)
Lemma ignition_frame_decoded m :
  ignition_frame m =
  (bus (frame_of_mailbox m) =? 0) && (arbitration_id (frame_of_mailbox m) =? 0x3C0).
Proof. apply andb_comm. Qed.

Lemma refines_exec_call c g p :
  refines g p -> refines (exec_call vw_hooks c g) (spec_exec_call c p).
Proof.
  intros [Hi Hc]. unfold refines.
  rewrite exec_call_vw_ignition_level, exec_call_controls_allowed.
  destruct c as [param|m|m|n d l| |b m]; simpl; try done.
  unfold spec_rx. rewrite <- ignition_frame_decoded.
  destruct (ignition_frame m); [|done]. simpl.
  by rewrite ign_mask_bit9; unfold ignition_level; rewrite c_true_b2z.
Qed.

Lemma refines_initial : refines initial_globals (spec_initial false).
Proof. done. Qed.

(** C7 (refinement). Simulation of the spec's policy by the C globals:
    if the two C flags, read as C booleans, are the abstract ignition and
    enable flags, they still are after any sequence of hook calls, the
    abstract policy stepping on the frames as the receive hook decodes
    them. *)
Theorem vw_refines_spec_calls cs g p :
  refines g p -> refines (exec_calls vw_hooks cs g) (spec_exec_calls cs p).
Proof.
  revert g p. induction cs as [|c cs IH]; intros g p H; [done|].
  apply IH. by apply refines_exec_call.
Qed.

(** ** Refinement of the answers *)

(** C8 (refinement). In related states, the ignition hook answers the
    abstract flag, the transmit hook the abstract approval, and on a
    standard frame the forwarding hook's [int], read by the gateway as a
    decision, is the spec's decision for every source bus. *)
Theorem vw_answers_refine_spec g p b m :
  refines g p -> standard_frame m ->
  c_true (st_eval vw_ign_hook g) = ignition_started p /\
  c_true (st_eval (vw_tx_hook m) g) = spec_tx (frame_of_mailbox m) /\
  fwd_decision_of_int (st_eval (vw_fwd_hook b m) g) = spec_fwd b (frame_of_mailbox m).
Proof.
  intros [Hi _] [Hw He]. split; [done|]. split; [done|].
  unfold st_eval. rewrite vw_fwd_hook_cases. simpl.
  rewrite (fwd_addr_standard m Hw He).
  unfold spec_fwd, fwd_decision_of_int. simpl. by zcase.
Qed.

(** ** Extended frames: where the code and the spec part *)

(** C12 (error). An extended frame from bus 1 whose decoded 29-bit id is
    0x126 is forwarded onto the car's bus 0 by [vw_fwd_hook] (its
    standard-shift read of RIR sees 0), while the spec drops every frame
    with id 0x126 from bus 1. *)
Theorem vw_fwd_extended_0x126_reaches_car m g :
  u32 (RIR m) -> rir_extended m = true -> rx_addr m = 0x126 ->
  st_eval (vw_fwd_hook 1 m) g = 0 /\ spec_fwd 1 (frame_of_mailbox m) = Drop.
Proof.
  intros Hw He Ha. split.
  - unfold st_eval. rewrite vw_fwd_hook_cases, (fwd_addr_extended m Hw He), Ha. done.
  - unfold spec_fwd. simpl. by rewrite Ha.
Qed.

(** C13 (error). Conversely, an extended frame from bus 1 whose top 11
    id bits are 0x126 (its id is not 0x126) is dropped by [vw_fwd_hook],
    while the spec forwards it to bus 0. *)
Theorem vw_fwd_extended_alias_dropped m g :
  u32 (RIR m) -> rir_extended m = true -> Z.shiftr (rx_addr m) 18 = 0x126 ->
  st_eval (vw_fwd_hook 1 m) g = -1 /\ spec_fwd 1 (frame_of_mailbox m) = Forward 0.
Proof.
  intros Hw He Ha. split.
  - unfold st_eval. rewrite vw_fwd_hook_cases, (fwd_addr_extended m Hw He), Ha. done.
  - unfold spec_fwd. simpl. zcase; [|done].
    match goal with E : rx_addr m = 0x126 |- _ => rewrite E in Ha end. done.
Qed.

(** C14 (error). The comment on the extended branch of [vw_rx_hook]
    (lines 8-10) says an extended id is "Not looked at" and is shifted
    separately "to avoid address collision".  The code contradicts it:
    line 19 compares the extended id with 0x3c0 without testing the IDE
    bit.  For a frame from bus 0 with id 0x3C0, the standard and the
    extended encodings are different registers, yet both set the ignition
    flag from bit 9 of the low data word: the extended frame is looked at
    and collides with the standard one. *)
Theorem vw_rx_hook_ide_collision dl dh g :
  u32 dl -> u32 dh ->
  RIR (mailbox_of_frame (mk_frame 0 true 0x3C0 dl dh)) <>
    RIR (mailbox_of_frame (mk_frame 0 false 0x3C0 dl dh)) /\
  vw_rx_hook (mailbox_of_frame (mk_frame 0 true 0x3C0 dl dh)) g =
    (tt, set_vw_ignition_started (Z.b2z (Z.testbit dl 9)) g) /\
  vw_rx_hook (mailbox_of_frame (mk_frame 0 false 0x3C0 dl dh)) g =
    (tt, set_vw_ignition_started (Z.b2z (Z.testbit dl 9)) g).
Proof.
  intros Hl Hh. split; [vm_compute; congruence|].
  assert (forall ext, frame_wf (mk_frame 0 ext 0x3C0 dl dh)) as Hwf
    by (intros []; unfold frame_wf, id_bits, u32 in *; simpl; lia).
  split; rewrite vw_rx_hook_spec; unfold ignition_frame;
    rewrite rx_addr_encode, rx_bus_number_encode by apply Hwf; done.
Qed.

(** ** Witnesses *)

Lemma vw_refines_spec_calls_witness :
  refines initial_globals (spec_initial false) /\
  refines
    (exec_calls vw_hooks
       [CallInit (-5); CallRx (mailbox_of_frame (mk_frame 0 false 0x3C0 0x200 0))]
       initial_globals)
    (spec_exec_calls
       [CallInit (-5); CallRx (mailbox_of_frame (mk_frame 0 false 0x3C0 0x200 0))]
       (spec_initial false)).
Proof.
  assert (H : refines initial_globals (spec_initial false)) by (split; reflexivity).
  split; [exact H | apply vw_refines_spec_calls; exact H].
Defined.

(** The spec's scenarios 3 and 4 side by side: a standard 0x126 from bus 1. *)
Lemma vw_answers_refine_spec_witness :
  refines initial_globals (spec_initial false) /\
  standard_frame (mailbox_of_frame (mk_frame 1 false 0x126 0 0)) /\
  c_true (st_eval vw_ign_hook initial_globals) = ignition_started (spec_initial false) /\
  c_true (st_eval (vw_tx_hook (mailbox_of_frame (mk_frame 1 false 0x126 0 0))) initial_globals) =
    spec_tx (frame_of_mailbox (mailbox_of_frame (mk_frame 1 false 0x126 0 0))) /\
  fwd_decision_of_int
    (st_eval (vw_fwd_hook 1 (mailbox_of_frame (mk_frame 1 false 0x126 0 0))) initial_globals) =
    spec_fwd 1 (frame_of_mailbox (mailbox_of_frame (mk_frame 1 false 0x126 0 0))).
Proof.
  assert (H : refines initial_globals (spec_initial false)) by (split; reflexivity).
  assert (Hs : standard_frame (mailbox_of_frame (mk_frame 1 false 0x126 0 0)))
    by (split; [unfold u32; vm_compute; split; congruence | reflexivity]).
  split; [exact H|]. split; [exact Hs|].
  exact (vw_answers_refine_spec _ _ 1 _ H Hs).
Defined.

Lemma vw_fwd_extended_0x126_reaches_car_witness :
  u32 (RIR (mailbox_of_frame (mk_frame 1 true 0x126 0 0))) /\
  rir_extended (mailbox_of_frame (mk_frame 1 true 0x126 0 0)) = true /\
  rx_addr (mailbox_of_frame (mk_frame 1 true 0x126 0 0)) = 0x126 /\
  st_eval (vw_fwd_hook 1 (mailbox_of_frame (mk_frame 1 true 0x126 0 0))) initial_globals = 0 /\
  spec_fwd 1 (frame_of_mailbox (mailbox_of_frame (mk_frame 1 true 0x126 0 0))) = Drop.
Proof.
  assert (Hw : u32 (RIR (mailbox_of_frame (mk_frame 1 true 0x126 0 0))))
    by (unfold u32; vm_compute; split; congruence).
  split; [exact Hw|]. split; [reflexivity|]. split; [reflexivity|].
  apply vw_fwd_extended_0x126_reaches_car; [exact Hw | reflexivity | reflexivity].
Defined.

Lemma vw_fwd_extended_alias_dropped_witness :
  u32 (RIR (mailbox_of_frame (mk_frame 1 true (0x126 * 2 ^ 18) 0 0))) /\
  rir_extended (mailbox_of_frame (mk_frame 1 true (0x126 * 2 ^ 18) 0 0)) = true /\
  Z.shiftr (rx_addr (mailbox_of_frame (mk_frame 1 true (0x126 * 2 ^ 18) 0 0))) 18 = 0x126 /\
  st_eval (vw_fwd_hook 1 (mailbox_of_frame (mk_frame 1 true (0x126 * 2 ^ 18) 0 0)))
    initial_globals = -1 /\
  spec_fwd 1 (frame_of_mailbox (mailbox_of_frame (mk_frame 1 true (0x126 * 2 ^ 18) 0 0))) =
    Forward 0.
Proof.
  assert (Hw : u32 (RIR (mailbox_of_frame (mk_frame 1 true (0x126 * 2 ^ 18) 0 0))))
    by (unfold u32; vm_compute; split; congruence).
  split; [exact Hw|]. split; [reflexivity|]. split; [reflexivity|].
  apply vw_fwd_extended_alias_dropped; [exact Hw | reflexivity | reflexivity].
Defined.

Lemma vw_rx_hook_ide_collision_witness :
  u32 0x200 /\ u32 0 /\
  RIR (mailbox_of_frame (mk_frame 0 true 0x3C0 0x200 0)) <>
    RIR (mailbox_of_frame (mk_frame 0 false 0x3C0 0x200 0)) /\
  vw_rx_hook (mailbox_of_frame (mk_frame 0 true 0x3C0 0x200 0)) initial_globals =
    (tt, set_vw_ignition_started (Z.b2z (Z.testbit 0x200 9)) initial_globals) /\
  vw_rx_hook (mailbox_of_frame (mk_frame 0 false 0x3C0 0x200 0)) initial_globals =
    (tt, set_vw_ignition_started (Z.b2z (Z.testbit 0x200 9)) initial_globals).
Proof.
  assert (Hl : u32 0x200) by (unfold u32; lia).
  assert (Hh : u32 0) by (unfold u32; lia).
  split; [exact Hl|]. split; [exact Hh|].
  exact (vw_rx_hook_ide_collision _ _ initial_globals Hl Hh).
Defined.
