(* ===== verification/Gateway.v ===== *)
(** * The gateway's dispatch into the active policy

    The firmware's dispatch loop is outside [src/]; it is modelled from
    the spec (sections 2 and 4.2): a received frame is stamped with its
    bus number, the forwarding hook picks a destination and the frame is
    forwarded unless the answer is -1, then the receive hook observes it
    and it is queued for the host; a host frame is transmitted only when
    the transmit hook approves.  The dispatch is written in the state
    monad over [gw_state], lifting the hooks' computations on the policy
    state; it is generic in the hook table.  The theorems relate the
    gateway to the hook calls it makes, give the provenance of every
    transmitted frame for any table, prove what the dispatch promises for
    a table meeting [HooksContract], check that the bus-number stamping
    is read back by the receive hook, and give invariants of every
    reachable state under [vw_hooks]. *)

From Stdlib Require Import ZArith Lia Bool List.
From stdpp Require Import base decidable numbers list.
From S2P Require Import Prelude Mailbox Hooks SafetyVW.

Open Scope Z_scope.
Local Open Scope c_scope.

(** ** Events and transmitted frames *)

(** Where a transmitted frame comes from. *)
Inductive origin :=
  | FromBus (src : Z)
  | FromHost.

#[export] Instance origin_eq_dec : EqDecision origin.
Proof. solve_decision. Defined.

(** A frame put on a bus: destination, origin, registers. *)
Record sent_frame := mk_sent {
  sent_bus : Z;
  sent_origin : origin;
  sent_msg : CAN_FIFOMailBox_TypeDef
}.

(** What the gateway reacts to. *)
Inductive gw_event :=
  | EvSetSafetyMode (param : Z)
  | EvCanRx (bus_number : Z) (m : CAN_FIFOMailBox_TypeDef)
  | EvHostCan (bus_number : Z) (m : CAN_FIFOMailBox_TypeDef)
  | EvHostLin (lin_num : Z) (data : list Byte.byte) (len : Z)
  | EvIgnitionQuery.

(** The receive path stores the bus number in RDTR bits 4..11:
    [RDTR = (RDTR & 0xFFFF000F) | (bus_number << 4)]. *)
Definition can_set_bus (m : CAN_FIFOMailBox_TypeDef) (bus_number : Z) : CAN_FIFOMailBox_TypeDef :=
  {| RIR := RIR m;
     RDTR := Z.lor (Z.land (RDTR m) 0xFFFF000F) (bus_number << 4);
     RDLR := RDLR m;
     RDHR := RDHR m |}.

(** Bus numbers of the events fit the 8 bits of RDTR the gateway uses. *)
Definition event_wf (e : gw_event) : Prop :=
  match e with
  | EvCanRx b _ => 0 <= b < 2 ^ 8
  | _ => True
  end.

(** ** The dispatch *)

Section Dispatch.
Context {S : Type} (H : safety_hooks S).

Record gw_state := mk_gw {
  gw_safety : S;
  gw_sent : list sent_frame;
  gw_lin_sent : list (Z * list Byte.byte);
  gw_to_host : list CAN_FIFOMailBox_TypeDef
}.

(** Run a hook on the policy state. *)
Definition lift {A} (c : St S A) : St gw_state A :=
  fun g => let '(a, s) := c (gw_safety g) in
           (a, mk_gw s (gw_sent g) (gw_lin_sent g) (gw_to_host g)).

(** Put a frame on bus [dst]. *)
Definition emit (dst : Z) (o : origin) (m : CAN_FIFOMailBox_TypeDef) : St gw_state unit :=
  st_modify (fun g => mk_gw (gw_safety g) (mk_sent dst o m :: gw_sent g)
                            (gw_lin_sent g) (gw_to_host g)).

Definition emit_lin (lin_num : Z) (data : list Byte.byte) : St gw_state unit :=
  st_modify (fun g => mk_gw (gw_safety g) (gw_sent g)
                            ((lin_num, data) :: gw_lin_sent g) (gw_to_host g)).

Definition push_to_host (m : CAN_FIFOMailBox_TypeDef) : St gw_state unit :=
  st_modify (fun g => mk_gw (gw_safety g) (gw_sent g) (gw_lin_sent g) (m :: gw_to_host g)).

(** A frame received on [bus_number]: forward, then observe, then queue. *)
Definition gw_can_rx (bus_number : Z) (m : CAN_FIFOMailBox_TypeDef) : St gw_state unit :=
  let to_push := can_set_bus m bus_number in
  bus_fwd_num ← lift (fwd H bus_number to_push);
  (match fwd_decision_of_int bus_fwd_num with
   | Forward dst => emit dst (FromBus bus_number) to_push
   | Drop => mret tt
   end);;
  lift (rx H to_push);;
  push_to_host to_push.

(** A frame the host asks to send on [bus_number]. *)
Definition gw_host_can (bus_number : Z) (m : CAN_FIFOMailBox_TypeDef) : St gw_state unit :=
  ok ← lift (tx H m);
  if c_true ok then emit bus_number FromHost m else mret tt.

(** A LIN message the host asks to send. *)
Definition gw_host_lin (lin_num : Z) (data : list Byte.byte) (len : Z) : St gw_state unit :=
  ok ← lift (tx_lin H lin_num data len);
  if c_true ok then emit_lin lin_num data else mret tt.

Definition gw_step (e : gw_event) : St gw_state unit :=
  match e with
  | EvSetSafetyMode param => lift (init H param)
  | EvCanRx b m => gw_can_rx b m
  | EvHostCan b m => gw_host_can b m
  | EvHostLin n d l => gw_host_lin n d l
  | EvIgnitionQuery => _ ← lift (ignition H); mret tt
  end.

(** A sequence of events, oldest first. *)
Definition gw_run (es : list gw_event) (g : gw_state) : gw_state :=
  fold_left (fun g e => st_exec (gw_step e) g) es g.

(** The gateway before any event: nothing sent, nothing queued. *)
Definition gw_initial (s : S) : gw_state := mk_gw s [] [] [].

(** The frames one event puts on a bus, newest first. *)
Definition new_sent (e : gw_event) (s : S) : list sent_frame :=
  match e with
  | EvCanRx b m =>
      match fwd_decision_of_int (st_eval (fwd H b (can_set_bus m b)) s) with
      | Forward dst => [mk_sent dst (FromBus b) (can_set_bus m b)]
      | Drop => []
      end
  | EvHostCan b m => if c_true (st_eval (tx H m) s) then [mk_sent b FromHost m] else []
  | _ => []
  end.

Inductive gw_reachable (g0 : gw_state) : gw_state -> Prop :=
  | gw_reach_init : gw_reachable g0 g0
  | gw_reach_step e g : event_wf e -> gw_reachable g0 g ->
      gw_reachable g0 (st_exec (gw_step e) g).

End Dispatch.

Arguments gw_state : clear implicits.

(** The hook calls an event makes, in order. *)
Definition calls_of_event (e : gw_event) : list hook_call :=
  match e with
  | EvSetSafetyMode param => [CallInit param]
  | EvCanRx b m => [CallFwd b (can_set_bus m b); CallRx (can_set_bus m b)]
  | EvHostCan b m => [CallTx m]
  | EvHostLin n d l => [CallTxLin n d l]
  | EvIgnitionQuery => [CallIgnition]
  end.

(** Frames forwarded from a bus went to a real bus number. *)
Definition fwd_target_ok (sf : sent_frame) : Prop :=
  match sent_origin sf with
  | FromBus _ => 0 <= sent_bus sf
  | FromHost => True
  end.

(** The routing guarantee of the VW policy for one transmitted frame: a
    frame from bus 0 went to bus 1, a frame from bus 1 went to bus 0 and
    its standard-shift address is not 0x126, and nothing else was
    forwarded. *)
Definition vw_route_ok (sf : sent_frame) : Prop :=
  match sent_origin sf with
  | FromBus src =>
      (src = 0 /\ sent_bus sf = 1) \/
      (src = 1 /\ sent_bus sf = 0 /\ fwd_addr (sent_msg sf) <> 0x126)
  | FromHost => True
  end.

(** The most recent frame received on bus 0 with address 0x3c0. *)
Fixpoint last_ignition_event (es : list gw_event) : option CAN_FIFOMailBox_TypeDef :=
  match es with
  | [] => None
  | e :: es' =>
      match last_ignition_event es' with
      | Some m => Some m
      | None =>
          match e with
          | EvCanRx b m => if (b =? 0) && (rx_addr m =? 0x3c0) then Some m else None
          | _ => None
          end
      end
  end.

(** ** The gateway and the hook calls it makes *)

(** Unfold one gateway step down to the hooks' results. *)
Ltac gw_unfold :=
  unfold gw_step, gw_can_rx, gw_host_can, gw_host_lin, lift, emit, emit_lin,
    push_to_host, st_modify, calls_of_event, exec_calls, fold_left, exec_call,
    new_sent, st_exec, st_eval, mbind, mret, St_bind, St_ret; cbn.

Section DispatchFacts.
Context {S : Type} (H : safety_hooks S).

Lemma lift_exec {A} (c : St S A) g :
  st_exec (lift c) g = mk_gw (st_exec c (gw_safety g)) (gw_sent g) (gw_lin_sent g) (gw_to_host g).
Proof. unfold lift, st_exec. by destruct (c (gw_safety g)). Qed.

(** One event changes the policy state as its hook calls do. *)
Lemma gw_step_safety e g :
  gw_safety (st_exec (gw_step H e) g) = exec_calls H (calls_of_event e) (gw_safety g).
Proof.
  destruct e as [param|b m|b m|n d l|]; gw_unfold.
  - by destruct (init H param (gw_safety g)).
  - destruct (fwd H b (can_set_bus m b) (gw_safety g)) as [n s1]; cbn.
    destruct (fwd_decision_of_int n); cbn;
      by destruct (rx H (can_set_bus m b) s1).
  - destruct (tx H m (gw_safety g)) as [ok s1]; cbn. by destruct (c_true ok).
  - destruct (tx_lin H n d l (gw_safety g)) as [ok s1]; cbn. by destruct (c_true ok).
  - by destruct (ignition H (gw_safety g)).
Qed.

(** One event puts on the buses exactly [new_sent]. *)
Lemma gw_step_sent e g :
  gw_sent (st_exec (gw_step H e) g) = new_sent H e (gw_safety g) ++ gw_sent g.
Proof.
  destruct e as [param|b m|b m|n d l|]; gw_unfold.
  - by destruct (init H param (gw_safety g)).
  - destruct (fwd H b (can_set_bus m b) (gw_safety g)) as [n s1]; cbn.
    destruct (fwd_decision_of_int n); cbn;
      by destruct (rx H (can_set_bus m b) s1).
  - destruct (tx H m (gw_safety g)) as [ok s1]; cbn. by destruct (c_true ok).
  - destruct (tx_lin H n d l (gw_safety g)) as [ok s1]; cbn. by destruct (c_true ok).
  - by destruct (ignition H (gw_safety g)).
Qed.

Lemma gw_run_snoc es e g : gw_run H (es ++ [e]) g = st_exec (gw_step H e) (gw_run H es g).
Proof. unfold gw_run. by rewrite fold_left_app. Qed.

(** A run changes the policy state as the concatenated hook calls do. *)
Lemma gw_run_safety es g :
  gw_safety (gw_run H es g) = exec_calls H (flat_map calls_of_event es) (gw_safety g).
Proof.
  revert g. induction es as [|e es IH]; intros g; [done|].
  cbn [flat_map]. rewrite exec_calls_app, <- gw_step_safety. apply IH.
Qed.

(** C10 (safety). Provenance of every frame the gateway puts on a bus,
    for any hook table: a host frame was sent by a host request that the
    transmit hook approved in the policy state of that moment, and a
    forwarded frame is the stamped copy of a frame received on its source
    bus, sent to the bus the forwarding hook answered then, never on
    -1. *)
Theorem gw_sent_provenance es g sf :
  In sf (gw_sent (gw_run H es g)) ->
  In sf (gw_sent g) \/
  exists es1 es2 : list gw_event,
    let s := gw_safety (gw_run H es1 g) in
    match sent_origin sf with
    | FromHost =>
        es = es1 ++ EvHostCan (sent_bus sf) (sent_msg sf) :: es2 /\
        c_true (st_eval (tx H (sent_msg sf)) s) = true
    | FromBus b =>
        exists m, es = es1 ++ EvCanRx b m :: es2 /\ sent_msg sf = can_set_bus m b /\
        st_eval (fwd H b (can_set_bus m b)) s = sent_bus sf /\ sent_bus sf <> -1
    end.
Proof.
  induction es as [|e es IH] using rev_ind; [by left|].
  rewrite gw_run_snoc, gw_step_sent, in_app_iff. intros [Hnew|Hold].
  - right. exists es, []. cbn zeta.
    destruct e as [param|b m|b m|n d l|]; simpl in Hnew; try done.
    + unfold fwd_decision_of_int in Hnew.
      destruct (Z.eqb_spec (st_eval (fwd H b (can_set_bus m b)) (gw_safety (gw_run H es g))) (-1));
        [done|].
      destruct Hnew as [<-|[]]. simpl. by exists m.
    + destruct (c_true _) eqn:E in Hnew; [|done]. destruct Hnew as [<-|[]]. by simpl.
  - destruct (IH Hold) as [Hg|(es1 & es2 & P)]; [by left|]. right.
    exists es1, (es2 ++ [e]). cbn zeta in *.
    destruct (sent_origin sf).
    + destruct P as (m & -> & P). exists m. split; [|done]. by rewrite <- app_assoc.
    + destruct P as [-> P]. split; [|done]. by rewrite <- app_assoc.
Qed.

End DispatchFacts.

(** ** What the dispatch promises under the interface contract *)

Section Contract.
Context {S : Type} (H : safety_hooks S) `{!HooksContract H}.

Lemma new_sent_target_ok e s : Forall fwd_target_ok (new_sent H e s).
Proof.
  destruct e as [param|b m|b m|n d l|]; simpl; try done.
  - pose proof (fwd_decision_range H b (can_set_bus m b) s) as R.
    destruct (fwd_decision_of_int _); by repeat constructor.
  - destruct (c_true _); by repeat constructor.
Qed.

(** The interface-level guarantee: for any hook table that meets
    [HooksContract], every reachable state forwards frames only onto bus
    numbers [>= 0].  The routing of the VW table is stated below. *)
Lemma gw_forward_targets_valid g0 g :
  gw_reachable H g0 g -> Forall fwd_target_ok (gw_sent g0) -> Forall fwd_target_ok (gw_sent g).
Proof.
  intros Hr H0. induction Hr as [|e g _ _ IH]; [done|].
  rewrite gw_step_sent. apply Forall_app. split; [apply new_sent_target_ok | exact IH].
Qed.

End Contract.

(** ** The gateway running the VW policy *)

(** The stamped bus number is the one the receive hook reads back. *)
Lemma rx_bus_number_set_bus m b : 0 <= b < 2 ^ 8 -> rx_bus_number (can_set_bus m b) = b.
Proof.
  intros Hb. unfold rx_bus_number, can_set_bus; simpl.
  apply Z.bits_inj'. intros i Hi.
  rewrite Z.land_spec, Z.shiftr_spec, Z.lor_spec, Z.land_spec, Z.shiftl_spec by lia.
  destruct (Z.ltb_spec i 8).
  - replace (i + 4 - 4) with i by lia.
    assert (i = 0 \/ i = 1 \/ i = 2 \/ i = 3 \/ i = 4 \/ i = 5 \/ i = 6 \/ i = 7) as Hc by lia.
    destruct Hc as [->|[->|[->|[->|[->|[->|[->| ->]]]]]]];
      cbn; rewrite ?andb_false_r, ?andb_true_r; done.
  - rewrite (testbit_small_high 0xFF 8 i), (testbit_small_high b 8 i) by lia.
    apply andb_false_r.
Qed.

Lemma fwd_addr_set_bus m b : fwd_addr (can_set_bus m b) = fwd_addr m.
Proof. done. Qed.

(** C15 (roundtrip). The bus number the receive path stamps into RDTR
    bits 4..11 is the one [vw_rx_hook] decodes, whatever the other bits of
    RDTR held, and the stamping leaves the IDE flag, the identifier and the
    data words the hooks read unchanged: the stamped mailbox decodes to the
    frame it carried, with its bus replaced. *)
Theorem frame_of_mailbox_set_bus m b :
  0 <= b < 2 ^ 8 ->
  frame_of_mailbox (can_set_bus m b) =
  {| bus := b; is_extended := rir_extended m; arbitration_id := rx_addr m;
     data_low := RDLR m; data_high := RDHR m |}.
Proof.
  intros Hb. unfold frame_of_mailbox.
  rewrite rx_bus_number_set_bus by exact Hb. done.
Qed.

(** The ignition flag after one event of the gateway. *)
Lemma gw_step_vw_ignition e g :
  event_wf e ->
  vw_ignition_started (gw_safety (st_exec (gw_step vw_hooks e) g)) =
  match e with
  | EvCanRx b m =>
      if (b =? 0) && (rx_addr m =? 0x3c0) then ignition_level m
      else vw_ignition_started (gw_safety g)
  | _ => vw_ignition_started (gw_safety g)
  end.
Proof.
  intros Hwf. rewrite gw_step_safety.
  destruct e as [param|b m|b m|n d l|]; cbn [calls_of_event exec_calls fold_left];
    rewrite ?exec_call_vw_ignition_level; try done.
  unfold ignition_frame. rewrite rx_bus_number_set_bus by exact Hwf.
  rewrite andb_comm. done.
Qed.

(** C9 (safety). Under the VW policy every frame the gateway forwards,
    in every reachable state, went from bus 0 to bus 1 or from bus 1 to
    bus 0 with a standard-shift address other than 0x126: nothing from
    another bus is ever forwarded and no frame read as 0x126 reaches the
    car from bus 1. *)
Theorem vw_gateway_routing g0 g :
  gw_reachable vw_hooks g0 g -> Forall vw_route_ok (gw_sent g0) -> Forall vw_route_ok (gw_sent g).
Proof.
  intros Hr H0. induction Hr as [|e g _ _ IH]; [done|].
  rewrite gw_step_sent. apply Forall_app. split; [|exact IH].
  destruct e as [param|b m|b m|n d l|]; simpl; try done.
  - unfold st_eval. rewrite vw_fwd_hook_cases. simpl.
    unfold fwd_decision_of_int, vw_route_ok. zcase; repeat constructor; simpl; lia.
  - by repeat constructor.
Qed.

(** C11 (functional). End to end: after any sequence of events with bus
    numbers in range, the ignition hook answers the level (bit 9 of RDLR)
    of the most recent frame received on bus 0 with address 0x3c0, or the
    previous value when there was none; host requests, queries and frames
    of other buses do not change it. *)
Theorem vw_gateway_ignition es g :
  Forall event_wf es ->
  st_eval vw_ign_hook (gw_safety (gw_run vw_hooks es g)) =
  match last_ignition_event es with
  | Some m => ignition_level m
  | None => vw_ignition_started (gw_safety g)
  end.
Proof.
  unfold st_eval. rewrite vw_ign_hook_read. simpl.
  revert g. induction es as [|e es IH]; intros g Hwf; [done|].
  inversion Hwf as [|? ? He Hes]; subst.
  simpl. rewrite IH by exact Hes. rewrite (gw_step_vw_ignition e g He).
  destruct (last_ignition_event es); [done|].
  destruct e; try done. by destruct (_ && _).
Qed.

(** ** Witnesses *)

(** A host request (scenario: standard 0x125 on bus 0) and its approval. *)
Lemma gw_sent_provenance_witness :
  In (mk_sent 0 FromHost (mailbox_of_frame (mk_frame 0 false 0x125 0 0)))
     (gw_sent (gw_run vw_hooks [EvHostCan 0 (mailbox_of_frame (mk_frame 0 false 0x125 0 0))]
                 (gw_initial initial_globals))) /\
  (In (mk_sent 0 FromHost (mailbox_of_frame (mk_frame 0 false 0x125 0 0)))
      (gw_sent (gw_initial initial_globals)) \/
   exists es1 es2 : list gw_event,
     let s := gw_safety (gw_run vw_hooks es1 (gw_initial initial_globals)) in
     match sent_origin (mk_sent 0 FromHost (mailbox_of_frame (mk_frame 0 false 0x125 0 0))) with
     | FromHost =>
         [EvHostCan 0 (mailbox_of_frame (mk_frame 0 false 0x125 0 0))] =
           es1 ++ EvHostCan (sent_bus (mk_sent 0 FromHost (mailbox_of_frame (mk_frame 0 false 0x125 0 0))))
                   (sent_msg (mk_sent 0 FromHost (mailbox_of_frame (mk_frame 0 false 0x125 0 0)))) :: es2 /\
         c_true (st_eval (tx vw_hooks (sent_msg (mk_sent 0 FromHost
                   (mailbox_of_frame (mk_frame 0 false 0x125 0 0))))) s) = true
     | FromBus b =>
         exists m, [EvHostCan 0 (mailbox_of_frame (mk_frame 0 false 0x125 0 0))] =
           es1 ++ EvCanRx b m :: es2 /\
           sent_msg (mk_sent 0 FromHost (mailbox_of_frame (mk_frame 0 false 0x125 0 0))) =
             can_set_bus m b /\
           st_eval (fwd vw_hooks b (can_set_bus m b)) s =
             sent_bus (mk_sent 0 FromHost (mailbox_of_frame (mk_frame 0 false 0x125 0 0))) /\
           sent_bus (mk_sent 0 FromHost (mailbox_of_frame (mk_frame 0 false 0x125 0 0))) <> -1
     end).
Proof.
  assert (Hin : In (mk_sent 0 FromHost (mailbox_of_frame (mk_frame 0 false 0x125 0 0)))
     (gw_sent (gw_run vw_hooks [EvHostCan 0 (mailbox_of_frame (mk_frame 0 false 0x125 0 0))]
                 (gw_initial initial_globals)))) by (simpl; left; reflexivity).
  split; [exact Hin | exact (gw_sent_provenance vw_hooks _ _ _ Hin)].
Defined.

(** Scenario 3: a standard 0x126 received on bus 1 is dropped. *)
Lemma vw_gateway_routing_witness :
  gw_reachable vw_hooks (gw_initial initial_globals)
    (st_exec (gw_step vw_hooks (EvCanRx 1 (mailbox_of_frame (mk_frame 1 false 0x126 0 0))))
       (gw_initial initial_globals)) /\
  Forall vw_route_ok (gw_sent (gw_initial initial_globals)) /\
  Forall vw_route_ok
    (gw_sent (st_exec (gw_step vw_hooks (EvCanRx 1 (mailbox_of_frame (mk_frame 1 false 0x126 0 0))))
                (gw_initial initial_globals))).
Proof.
  assert (Hr : gw_reachable vw_hooks (gw_initial initial_globals)
    (st_exec (gw_step vw_hooks (EvCanRx 1 (mailbox_of_frame (mk_frame 1 false 0x126 0 0))))
       (gw_initial initial_globals)))
    by (apply gw_reach_step; [simpl; lia | apply gw_reach_init]).
  assert (H0 : Forall vw_route_ok (gw_sent (gw_initial initial_globals))) by (simpl; constructor).
  split; [exact Hr|]. split; [exact H0|].
  exact (vw_gateway_routing _ _ Hr H0).
Defined.

(** Ignition on, a host frame, then a frame of bus 1: the level stays 1. *)
Lemma vw_gateway_ignition_witness :
  Forall event_wf
    [EvCanRx 0 (mailbox_of_frame (mk_frame 0 false 0x3C0 0x200 0));
     EvHostCan 0 (mailbox_of_frame (mk_frame 0 false 0x125 0 0));
     EvCanRx 1 (mailbox_of_frame (mk_frame 1 false 0x3C0 0 0))] /\
  st_eval vw_ign_hook
    (gw_safety (gw_run vw_hooks
       [EvCanRx 0 (mailbox_of_frame (mk_frame 0 false 0x3C0 0x200 0));
        EvHostCan 0 (mailbox_of_frame (mk_frame 0 false 0x125 0 0));
        EvCanRx 1 (mailbox_of_frame (mk_frame 1 false 0x3C0 0 0))]
       (gw_initial initial_globals))) =
  match last_ignition_event
    [EvCanRx 0 (mailbox_of_frame (mk_frame 0 false 0x3C0 0x200 0));
     EvHostCan 0 (mailbox_of_frame (mk_frame 0 false 0x125 0 0));
     EvCanRx 1 (mailbox_of_frame (mk_frame 1 false 0x3C0 0 0))] with
  | Some m => ignition_level m
  | None => vw_ignition_started (gw_safety (gw_initial initial_globals))
  end.
Proof.
  assert (Hwf : Forall event_wf
    [EvCanRx 0 (mailbox_of_frame (mk_frame 0 false 0x3C0 0x200 0));
     EvHostCan 0 (mailbox_of_frame (mk_frame 0 false 0x125 0 0));
     EvCanRx 1 (mailbox_of_frame (mk_frame 1 false 0x3C0 0 0))])
    by (repeat constructor; simpl; lia).
  split; [exact Hwf | exact (vw_gateway_ignition _ _ Hwf)].
Defined.

(** A mailbox whose RDTR has every bit set, stamped with bus 1. *)
Lemma frame_of_mailbox_set_bus_witness :
  0 <= 1 < 2 ^ 8 /\
  frame_of_mailbox (can_set_bus (mk_mailbox 0x3C00000 0xFFFFFFFF 7 9) 1) =
  {| bus := 1; is_extended := rir_extended (mk_mailbox 0x3C00000 0xFFFFFFFF 7 9);
     arbitration_id := rx_addr (mk_mailbox 0x3C00000 0xFFFFFFFF 7 9);
     data_low := 7; data_high := 9 |}.
Proof.
  assert (Hb : 0 <= 1 < 2 ^ 8) by lia.
  split; [exact Hb | exact (frame_of_mailbox_set_bus _ 1 Hb)].
Defined.
